(** * A shallow embedding of the RAG service of chatbot-sentimen

    Sources: [src/src/modules/rag/rag.service.ts] (RagService) and
    [src/src/modules/rag/rag.controller.ts] (RagController).

    Conventions of the model:
    - JavaScript strings are Rocq [string]s; one [ascii] per UTF-16 code unit,
      so only the code units 0..255 (Latin-1) are represented.
    - JSON numbers are integers ([Z]); fractional numbers are not modelled.
    - A JSON object is the association list of its own properties in
      enumeration order, with distinct keys (as [JSON.parse] builds it).
    - Effects of the service (logging, the retriever and the chat model) are
      recorded in a trace of events threaded through a state/error monad. *)

From Stdlib Require Import String Ascii List ZArith Bool Lia.
Import ListNotations.
Open Scope string_scope.

(* ------------------------------------------------------------------ *)
(** ** JavaScript values and the library routines the service uses     *)

Set Warnings "-register-all".

Inductive json : Type :=
| JNull
| JBool (b : bool)
| JNum (n : Z)
| JStr (s : string)
| JArr (items : list json)
| JObj (fields : list (string * json)).

(** A property read [item[field]]: [None] is [undefined]. *)
Definition jsval := option json.

(** Fallible computations: [Err msg] is a thrown [Error] with message [msg]. *)
Inductive res (A : Type) : Type :=
| Ok (a : A)
| Err (msg : string).
Arguments Ok {A} a.
Arguments Err {A} msg.

Definition res_bind {A B} (m : res A) (k : A -> res B) : res B :=
  match m with Ok a => k a | Err e => Err e end.

Notation "x <-? m ;; k" := (res_bind m (fun x => k))
  (at level 61, m at next level, right associativity).

Definition chr (n : nat) : ascii := ascii_of_nat n.
Definition str1 (c : ascii) : string := String c EmptyString.
Definition nl : string := str1 (chr 10).
Definition dq : string := str1 (chr 34).

(** [Array.prototype.join(sep)] on strings. *)
Fixpoint join (sep : string) (l : list string) : string :=
  match l with
  | [] => EmptyString
  | [x] => x
  | x :: rest => x ++ sep ++ join sep rest
  end.

(** Property lookup on an object. *)
Fixpoint lookup (k : string) (fs : list (string * json)) : jsval :=
  match fs with
  | [] => None
  | (k', v) :: rest => if String.eqb k k' then Some v else lookup k rest
  end.

(** [item[field]] for a JSON value.  Reading a property of [null] throws a
    [TypeError].  The names this code reads (the two allow-lists below) are
    neither own nor inherited properties of booleans, numbers, strings or
    arrays, so those read [undefined]. *)
Definition get_prop (item : json) (field : string) : res jsval :=
  match item with
  | JNull => Err ("Cannot read properties of null (reading '" ++ field ++ "')")
  | JObj fs => Ok (lookup field fs)
  | _ => Ok None
  end.

(** JavaScript truthiness of a property value. *)
Definition truthy (v : jsval) : bool :=
  match v with
  | None => false
  | Some JNull => false
  | Some (JBool b) => b
  | Some (JNum n) => negb (Z.eqb n 0)
  | Some (JStr s) => negb (String.eqb s EmptyString)
  | Some (JArr _) => true
  | Some (JObj _) => true
  end.

(** Decimal rendering of numbers ([String(n)] on an integer). *)
Fixpoint digits_aux (fuel : nat) (n : N) (acc : string) : string :=
  match fuel with
  | O => acc
  | S fuel' =>
      let d := N.to_nat (N.modulo n 10) in
      let acc' := String (chr (48 + d)) acc in
      let q := N.div n 10 in
      if N.eqb q 0 then acc' else digits_aux fuel' q acc'
  end.

Definition string_of_N (n : N) : string :=
  digits_aux (S (N.size_nat n)) n EmptyString.

Definition string_of_Z (z : Z) : string :=
  match z with
  | Z.neg p => "-" ++ string_of_N (Npos p)
  | _ => string_of_N (Z.to_N z)
  end.

(** JSON string escaping as done by [JSON.stringify]. *)
Definition hex_digit (n : nat) : ascii :=
  if Nat.ltb n 10 then chr (48 + n) else chr (87 + n).

Definition escape_char (c : ascii) : string :=
  let n := nat_of_ascii c in
  if Nat.eqb n 34 then "\" ++ dq
  else if Nat.eqb n 92 then "\\"
  else if Nat.eqb n 8 then "\b"
  else if Nat.eqb n 12 then "\f"
  else if Nat.eqb n 10 then "\n"
  else if Nat.eqb n 13 then "\r"
  else if Nat.eqb n 9 then "\t"
  else if Nat.ltb n 32 then
    "\u00" ++ str1 (hex_digit (n / 16)) ++ str1 (hex_digit (n mod 16))
  else str1 c.

Fixpoint escape (s : string) : string :=
  match s with
  | EmptyString => EmptyString
  | String c rest => escape_char c ++ escape rest
  end.

Definition quote (s : string) : string := dq ++ escape s ++ dq.

(** [JSON.stringify(v, null, 2)] with the current indentation [ind]. *)
Fixpoint stringify_at (ind : string) (v : json) : string :=
  let ind' := ind ++ "  " in
  match v with
  | JNull => "null"
  | JBool true => "true"
  | JBool false => "false"
  | JNum n => string_of_Z n
  | JStr s => quote s
  | JArr [] => "[]"
  | JArr items =>
      "[" ++ nl
      ++ join ("," ++ nl) (map (fun x => ind' ++ stringify_at ind' x) items)
      ++ nl ++ ind ++ "]"
  | JObj [] => "{}"
  | JObj fs =>
      "{" ++ nl
      ++ join ("," ++ nl)
           (map (fun kv => ind' ++ quote (fst kv) ++ ": " ++ stringify_at ind' (snd kv)) fs)
      ++ nl ++ ind ++ "}"
  end.

Definition json_stringify_pretty (v : json) : string := stringify_at EmptyString v.

(** [String(v)], as a template literal [`${v}`] renders a value. *)
Fixpoint js_to_string (v : json) : string :=
  match v with
  | JNull => "null"
  | JBool true => "true"
  | JBool false => "false"
  | JNum n => string_of_Z n
  | JStr s => s
  | JArr items => join "," (map (fun x => match x with JNull => EmptyString | _ => js_to_string x end) items)
  | JObj _ => "[object Object]"
  end.

Definition js_to_string_val (v : jsval) : string :=
  match v with None => "undefined" | Some x => js_to_string x end.

(* ------------------------------------------------------------------ *)
(** ** Building documents from the dataset ([loadDocuments])           *)

(** [contentFields] of [extractContentFromItem]. *)
Definition contentFields : list string :=
  ["nama"; "name"; "title"; "judul"; "deskripsi"; "description"; "desc";
   "kategori"; "category"; "jenis"; "type"; "alamat"; "address"; "lokasi";
   "location"; "produk"; "product"; "layanan"; "service"; "keterangan";
   "info"; "detail"].

(** [metadataFields] of [extractMetadataFromItem]. *)
Definition metadataFields : list string :=
  ["id"; "kategori"; "category"; "jenis"; "type"; "alamat"; "address";
   "kota"; "city"; "provinsi"; "province"].

(** [arr.forEach(f)] where [f] updates an accumulator and may throw. *)
Fixpoint for_each {A B} (f : B -> A -> res B) (acc : B) (l : list A) : res B :=
  match l with
  | [] => Ok acc
  | x :: rest => acc' <-? f acc x ;; for_each f acc' rest
  end.

(** [extractContentFromItem(item)]. *)
Definition extractContentFromItem (item : json) : res string :=
  contentParts <-? for_each
    (fun parts field =>
       v <-? get_prop item field ;;
       Ok (if truthy v then
             match v with
             | Some (JStr s) => app parts [field ++ ": " ++ s]
             | _ => parts
             end
           else parts))
    [] contentFields ;;
  let contentParts :=
    match contentParts with
    | [] => [json_stringify_pretty item]
    | _ => contentParts
    end in
  Ok (join nl contentParts).

(** A JavaScript object with string keys, in property order. *)
Definition obj := list (string * json).

(** [o[k] = v]: overwrite in place when [k] is a key, append otherwise. *)
Fixpoint set_prop (o : obj) (k : string) (v : json) : obj :=
  match o with
  | [] => [(k, v)]
  | (k', v') :: rest =>
      if String.eqb k k' then (k', v) :: rest else (k', v') :: set_prop rest k v
  end.

(** Object spread [{...o, ...extra}]. *)
Definition spread (o extra : obj) : obj :=
  fold_left (fun acc kv => set_prop acc (fst kv) (snd kv)) extra o.

(** [extractMetadataFromItem(item)]. *)
Definition extractMetadataFromItem (item : json) : res obj :=
  for_each
    (fun metadata field =>
       v <-? get_prop item field ;;
       Ok (match v with
           | Some x => if truthy v then set_prop metadata field x else metadata
           | None => metadata
           end))
    [] metadataFields.

Record Document : Type := mkDocument {
  pageContent : string;
  metadata : obj
}.

Definition dataset_source : string := "dataset_umkm.json".

(** The body of the [forEach] callback, and of the single-object branch. *)
Definition make_document (item : json) (index : nat) : res Document :=
  content <-? extractContentFromItem item ;;
  md <-? extractMetadataFromItem item ;;
  let metadata := spread [("source", JStr dataset_source); ("index", JNum (Z.of_nat index))] md in
  Ok (mkDocument content metadata).

(** [jsonData.forEach((item, index) => documents.push(...))]. *)
Fixpoint push_items (items : list json) (index : nat) (documents : list Document)
  : res (list Document) :=
  match items with
  | [] => Ok documents
  | item :: rest =>
      d <-? make_document item index ;;
      push_items rest (S index) (app documents [d])
  end.

(** [Array.isArray(v)]. *)
Definition is_array (v : json) : bool :=
  match v with JArr _ => true | _ => false end.

(** [loadDocuments()], from the value [JSON.parse] returned for the dataset
    file (the existence check and the parse come before it). *)
Definition loadDocuments (jsonData : json) : res (list Document) :=
  match jsonData with
  | JArr items => push_items items 0 []
  | _ =>
      (* Handle single object *)
      d <-? make_document jsonData 0 ;;
      Ok [d]
  end.

(* ------------------------------------------------------------------ *)
(** ** The service: effects, the QA chain, [askQuestion]               *)

(** Observable effects of the service, in the order they happen. *)
Inductive event : Type :=
| ELog (msg : string)                  (* this.logger.log(msg) *)
| EError (context : string) (msg : string)
                                       (* this.logger.error(context, error) *)
| EIndex (documents : list Document)   (* embedding of the documents *)
| ERetrieve (query : string)           (* retriever call for a query *)
| EGenerate (prompt : string).         (* chat-completion call *)

Definition trace := list event.

(** A state (trace) and error monad. *)
Definition M (A : Type) : Type := trace -> trace * res A.

Definition ret {A} (a : A) : M A := fun t => (t, Ok a).
Definition throw {A} (msg : string) : M A := fun t => (t, Err msg).
Definition emit (e : event) : M unit := fun t => (app t [e], Ok tt).
Definition lift {A} (r : res A) : M A := fun t => (t, r).
Definition bind {A B} (m : M A) (k : A -> M B) : M B :=
  fun t => match m t with
           | (t', Ok a) => k a t'
           | (t', Err e) => (t', Err e)
           end.
(** [try { m } catch (error) { h(error.message) }]. *)
Definition catch {A} (m : M A) (h : string -> M A) : M A :=
  fun t => match m t with
           | (t', Ok a) => (t', Ok a)
           | (t', Err e) => h e t'
           end.

Notation "x <- m ;; k" := (bind m (fun x => k))
  (at level 61, m at next level, right associativity).
Notation "m ;;; k" := (bind m (fun _ => k))
  (at level 61, right associativity).

(** The prompt template of [initializeRag], split at its two slots. *)
Definition template_head : string := "
        Namamu Adalah Sentinela
        Gunakan konteks berikut untuk menjawab pertanyaan tentang UMKM (Usaha Mikro, Kecil, dan Menengah).
        Berikan jawaban yang informatif dan akurat berdasarkan data yang tersedia.
        
        Konteks:
        ".
Definition template_mid : string := "
        
        Pertanyaan: ".
Definition template_tail : string := "
        
        Jawaban:
      ".

(** [promptTemplate.format({context, question})]. *)
Definition format_prompt (context question : string) : string :=
  template_head ++ context ++ template_mid ++ question ++ template_tail.

(** The fixed prompt of [getInsights]. *)
Definition insights_prompt : string := "Buatkan key insight dan key strategy berdasarkan data di atas.
  
  **Pola Penting:**
  1. Hubungan antara sentimen positif dan engagement: Apakah benar konten positif menghasilkan engagement 40% lebih tinggi?
  2. Analisis sentimen netral: Peluang apa yang bisa ditangkap UMKM untuk meningkatkan daya saing dari opini yang belum jelas positif/negative?
  3. Dari sentimen positif, aspek apa yang paling sering dipuji (harga, kualitas, pelayanan, inovasi)? Bagaimana UMKM bisa memanfaatkan hal ini untuk branding?
  4. Berdasarkan analisis sentimen, strategi komunikasi digital apa yang sebaiknya dijalankan UMKM untuk meningkatkan citra di media sosial?
  5. Mengapa hanya 0.6% konten yang berhasil memicu emosi positif?
  6. Potensi Tersembunyi: Apakah ada postingan netral dengan engagement tinggi yang sebenarnya bisa dikategorikan positif?
  7. Analisis bagaimana UMKM lokal di Indonesia saat ini memanfaatkan media sosial untuk membangun citra brand. Identifikasi gap antara penggunaan media sosial tradisional dengan pendekatan analisis sentimen yang lebih canggih. Berikan data statistik terkini dan contoh kasus nyata.
  
  **Arah Analisis:**
  - Fokus pada: Strategi konten
  - Tujuan: Meningkatkan engagement melalui konten yang lebih emosional
  - Stakeholder: Tim marketing
  
  **Format Output:**
  1. **Headline Insight**: 1 kalimat singkat yang paling mencolok
  2. **Data Pendukung**: 3-5 angka kunci terkait
  3. **Analisis Mendalam**:
     - Penyebab potensial
     - Implikasi bisnis
     - Perbandingan dengan benchmark
  4. **Rekomendasi Aksi**:
     - 2-3 langkah konkret
     - Timeline implementasi
     - Metrik sukses
  5. **Risiko & Peluang**:
     - Risiko jika tidak diatasi
     - Peluang yang bisa dimanfaatkan
  6. **Saran dan Strategy**:
     - Saran untuk UMKM kedepannya
     - Strategy yang nanti digunakan kedepannya
  
  **Tingkat Kedalaman:** Komprehensif
  
  Berikan jawaban yang terstruktur dan mendalam berdasarkan data yang tersedia.".

Definition no_answer : string := "Tidak dapat menemukan jawaban yang sesuai.".

(** The value [qaChain.call] resolves to: the fields [askQuestion] reads. *)
Record ChainOutput : Type := mkChainOutput {
  out_text : option string;
  out_answer : option string;
  out_sourceDocuments : option (list Document)
}.

Record RagQueryResponse : Type := mkResponse {
  answer : string;
  sources : list string
}.

(** The state of a [RagService] that [askQuestion] reads: [qaChain] is
    [None] until [initializeRag] has completed, and otherwise the chain over
    the documents of the in-memory vector store. *)
Record RagService : Type := mkRagService {
  qaChain : option (list Document)
}.

Definition new_service : RagService := mkRagService None.

(** [a || b] on string-valued operands. *)
Definition or_else (v : option string) (d : string) : string :=
  match v with
  | Some s => if String.eqb s EmptyString then d else s
  | None => d
  end.

(** The [forEach] of [askQuestion] over [result.sourceDocuments]. *)
Fixpoint render_sources (docs : list Document) (index : nat) : list string :=
  match docs with
  | [] => []
  | doc :: rest =>
      let v := lookup "source" (metadata doc) in
      let source := if truthy v then js_to_string_val v else "Unknown source" in
      let docIndex :=
        match lookup "index" (metadata doc) with
        | Some i => js_to_string i
        | None => string_of_N (N.of_nat index)
        end in
      (source ++ " (Document " ++ docIndex ++ ")") :: render_sources rest (S index)
  end.

(** [[...new Set(xs)]]: the first occurrence of each string, in order. *)
Definition set_spread (xs : list string) : list string :=
  fold_left (fun acc x => if existsb (String.eqb x) acc then acc else app acc [x]) xs [].

(** JavaScript [WhiteSpace] and [LineTerminator] code units in 0..255. *)
Definition is_js_space (c : ascii) : bool :=
  let n := nat_of_ascii c in
  orb (andb (Nat.leb 9 n) (Nat.leb n 13)) (orb (Nat.eqb n 32) (Nat.eqb n 160)).

Fixpoint trim_start (s : string) : string :=
  match s with
  | String c rest => if is_js_space c then trim_start rest else s
  | EmptyString => EmptyString
  end.

Definition trim_end (s : string) : string :=
  let fix go (l : list ascii) : list ascii :=
    match l with
    | c :: rest => if is_js_space c then go rest else l
    | [] => []
    end in
  string_of_list_ascii (rev (go (rev (list_ascii_of_string s)))).

(** [String.prototype.trim]. *)
Definition trim (s : string) : string := trim_end (trim_start s).

Section Providers.

(** The external providers, reached through LangChain: the embedding of the
    documents when the [MemoryVectorStore] is built, the retriever made by
    [asRetriever({k: 5})] (its query embedding and similarity search), and
    the [gemini-2.0-flash] chat model.  Each may fail with an error message. *)
Variable embed_documents : list Document -> res unit.
Variable similarity_search : list Document -> string -> res (list Document).
Variable chat_model : string -> res string.

(** [qaChain.call({query})] of [RetrievalQAChain.fromLLM(llm, retriever,
    {prompt, returnSourceDocuments: true})]: retrieve for the query, join the
    page contents with blank lines into the context (the stuff-documents
    chain), fill the template, call the model. *)
Definition qa_call (store : list Document) (query : string) : M ChainOutput :=
  emit (ERetrieve query) ;;;
  docs <- lift (similarity_search store query) ;;
  let context := join (nl ++ nl) (map pageContent docs) in
  let prompt := format_prompt context query in
  emit (EGenerate prompt) ;;;
  text <- lift (chat_model prompt) ;;
  ret (mkChainOutput (Some text) None (Some docs)).

(** The [try] block of [askQuestion]. *)
Definition askQuestion_body (svc : RagService) (query : string) : M RagQueryResponse :=
  match qaChain svc with
  | None => throw "RAG system is not initialized"
  | Some store =>
      emit (ELog ("Processing query: " ++ query)) ;;;
      result <- qa_call store query ;;
      let srcs :=
        match out_sourceDocuments result with
        | Some docs => render_sources docs 0
        | None => []
        end in
      ret (mkResponse
             (or_else (out_text result) (or_else (out_answer result) no_answer))
             (set_spread srcs))
  end.

(** [askQuestion(query)]. *)
Definition askQuestion (svc : RagService) (query : string) : M RagQueryResponse :=
  catch (askQuestion_body svc query)
    (fun e =>
       emit (EError "Error processing query:" e) ;;;
       throw ("Failed to process query: " ++ e)).

(** [getInsights()]. *)
Definition getInsights (svc : RagService) : M RagQueryResponse :=
  catch (askQuestion svc insights_prompt)
    (fun e =>
       emit (EError "Error getting insights:" e) ;;;
       throw ("Failed to generate insights: " ++ e)).

(** [loadDocuments()] with its logging. *)
Definition loadDocuments_M (jsonData : json) : M (list Document) :=
  catch
    (documents <- lift (loadDocuments jsonData) ;;
     emit (ELog ("Loaded " ++ string_of_N (N.of_nat (length documents))
                 ++ " documents from JSON file")) ;;;
     ret documents)
    (fun e => emit (EError "Error loading documents:" e) ;;; throw e).

(** [initializeRag()], given the configured [GEMINI_API_KEY] and the parsed
    dataset; on success the service's [qaChain] is built over the documents. *)
Definition initializeRag (apiKey : option string) (jsonData : json) : M RagService :=
  catch
    (emit (ELog "Initializing RAG system...") ;;;
     (if truthy (option_map JStr apiKey) then ret tt
      else throw "GEMINI_API_KEY is not configured") ;;;
     documents <- loadDocuments_M jsonData ;;
     emit (EIndex documents) ;;;
     lift (embed_documents documents) ;;;
     emit (ELog "RAG system initialized successfully") ;;;
     ret (mkRagService (Some documents)))
    (fun e => emit (EError "Failed to initialize RAG system:" e) ;;; throw e).

(** [RagController.query(queryDto)], for the body [{question}]. *)
Definition controller_query (svc : RagService) (question : string) : M RagQueryResponse :=
  result <- askQuestion svc (trim question) ;;
  ret (mkResponse (answer result) (sources result)).

End Providers.

(* ------------------------------------------------------------------ *)
(** ** Readings of the specification                                    *)

(** The claimed document text: a line per allow-listed field present in
    the record, else the pretty-printed record. *)
Definition claim_content (fs : obj) : string :=
  let parts :=
    flat_map (fun f => match lookup f fs with
                       | Some v => [f ++ ": " ++ js_to_string v]
                       | None => []
                       end) contentFields in
  match parts with
  | [] => json_stringify_pretty (JObj fs)
  | _ => join nl parts
  end.

(** The lines of the document text as the code builds them: one per
    allow-listed field whose value is a non-empty string. *)
Definition content_lines (get : string -> jsval) : list string :=
  flat_map (fun f => match get f with
                     | Some (JStr s) => if String.eqb s EmptyString then [] else [f ++ ": " ++ s]
                     | _ => []
                     end) contentFields.

Definition content_text (get : string -> jsval) (whole : json) : string :=
  match content_lines get with
  | [] => json_stringify_pretty whole
  | parts => join nl parts
  end.

(** The falsy JSON values: [null], [false], [0] and the empty string. *)
Definition falsy_json (x : json) : bool :=
  match x with
  | JNull => true
  | JBool false => true
  | JNum Z0 => true
  | JStr EmptyString => true
  | _ => false
  end.

Definition base_metadata (index : nat) : obj :=
  [("source", JStr dataset_source); ("index", JNum (Z.of_nat index))].

(** The claimed metadata: a copy of every allow-listed field present. *)
Definition claim_metadata (index : nat) (fs : obj) : obj :=
  app (base_metadata index)
      (flat_map (fun f => match lookup f fs with Some x => [(f, x)] | None => [] end)
         metadataFields).

(** The copies the code makes: allow-listed fields with a truthy value. *)
Definition metadata_copies (get : string -> jsval) : obj :=
  flat_map (fun f => match get f with
                     | Some x => if falsy_json x then [] else [(f, x)]
                     | None => []
                     end) metadataFields.

Fixpoint indexed_metadata (index : nat) (recs : list obj) : list obj :=
  match recs with
  | [] => []
  | fs :: rest =>
      app (base_metadata index) (metadata_copies (fun f => lookup f fs))
      :: indexed_metadata (S index) rest
  end.

(* ------------------------------------------------------------------ *)
(** ** Lemmas on the document builder                                   *)

(** The properties of a non-null value the code reads. *)
Definition prop_of (v : json) (f : string) : jsval :=
  match v with JObj fs => lookup f fs | _ => None end.

Lemma get_prop_ok (v : json) (f : string) :
  v <> JNull -> get_prop v f = Ok (prop_of v f).
Proof. intros Hv; destruct v; simpl; try reflexivity; now destruct Hv. Qed.

Lemma truthy_falsy (x : json) : truthy (Some x) = negb (falsy_json x).
Proof.
  destruct x as [|b|n|s|l|fs]; simpl;
    [| destruct b | destruct n | destruct s | |]; reflexivity.
Qed.

Lemma for_each_app {A B} (f : list B -> A -> res (list B)) (h : A -> list B) :
  (forall acc x, f acc x = Ok (app acc (h x))) ->
  forall l acc, for_each f acc l = Ok (app acc (flat_map h l)).
Proof.
  intros Hf l; induction l as [|x l IH]; intros acc; simpl.
  - now rewrite app_nil_r.
  - rewrite Hf; simpl; rewrite IH, app_assoc; reflexivity.
Qed.

Lemma extract_content_ok (v : json) :
  v <> JNull -> extractContentFromItem v = Ok (content_text (prop_of v) v).
Proof.
  intros Hv; unfold extractContentFromItem, content_text, content_lines.
  rewrite (for_each_app _
    (fun f => match prop_of v f with
              | Some (JStr s) => if String.eqb s EmptyString then [] else [f ++ ": " ++ s]
              | _ => []
              end)).
  - match goal with |- res_bind (Ok (app [] ?F)) _ = _ => destruct F end;
    reflexivity.
  - intros acc x; rewrite (get_prop_ok v x Hv); simpl.
    destruct (prop_of v x) as [j|]; [|now rewrite app_nil_r].
    destruct j as [|b|n|s|l|fs]; simpl; rewrite ?app_nil_r;
      [reflexivity | now destruct b | now destruct (negb _) | | reflexivity | reflexivity].
    destruct (String.eqb s EmptyString); simpl; now rewrite ?app_nil_r.
Qed.

Lemma set_prop_notin (o : obj) (k : string) (x : json) :
  ~ In k (map fst o) -> set_prop o k x = app o [(k, x)].
Proof.
  induction o as [|[k' x'] o IH]; simpl; intros Hn; [reflexivity|].
  destruct (String.eqb_spec k k') as [->|Hne]; [tauto|].
  rewrite IH; tauto.
Qed.

Lemma metadata_copies_keys (get : string -> jsval) (l : list string) :
  forall k, In k (map fst (flat_map (fun f => match get f with
                     | Some x => if falsy_json x then [] else [(f, x)]
                     | None => []
                     end) l)) -> In k l.
Proof.
  induction l as [|f l IH]; simpl; [tauto|].
  intros k Hk; rewrite map_app, in_app_iff in Hk.
  destruct Hk as [Hk|Hk]; [|right; now apply IH].
  destruct (get f) as [x|]; [destruct (falsy_json x)|]; simpl in Hk; tauto.
Qed.

Lemma for_each_metadata (v : json) (l : list string) :
  v <> JNull -> NoDup l ->
  forall acc, (forall k, In k l -> ~ In k (map fst acc)) ->
  for_each
    (fun metadata field =>
       x <-? get_prop v field ;;
       Ok (match x with
           | Some y => if truthy x then set_prop metadata field y else metadata
           | None => metadata
           end)) acc l
  = Ok (app acc (flat_map (fun f => match prop_of v f with
                     | Some x => if falsy_json x then [] else [(f, x)]
                     | None => []
                     end) l)).
Proof.
  intros Hv Hl; induction Hl as [|f l Hf Hl IH]; intros acc Hacc; simpl.
  - now rewrite app_nil_r.
  - rewrite (get_prop_ok v f Hv); simpl.
    destruct (prop_of v f) as [y|] eqn:Hy.
    + rewrite truthy_falsy; destruct (falsy_json y); simpl.
      * apply IH; intros k Hk; apply Hacc; now right.
      * rewrite set_prop_notin by (apply Hacc; now left).
        rewrite IH, <- app_assoc; [reflexivity|].
        intros k Hk; rewrite map_app, in_app_iff; simpl.
        intros [H|[H|[]]]; [exact (Hacc k (or_intror Hk) H)|subst; contradiction].
    + apply IH; intros k Hk; apply Hacc; now right.
Qed.

Lemma metadataFields_NoDup : NoDup metadataFields.
Proof.
  unfold metadataFields.
  repeat (constructor; [simpl; intuition discriminate|]); constructor.
Qed.

Lemma extract_metadata_ok (v : json) :
  v <> JNull -> extractMetadataFromItem v = Ok (metadata_copies (prop_of v)).
Proof.
  intros Hv; unfold extractMetadataFromItem.
  rewrite (for_each_metadata v metadataFields Hv metadataFields_NoDup []); [reflexivity|].
  intros k _ [].
Qed.

Lemma spread_disjoint (extra o : obj) :
  NoDup (map fst extra) ->
  (forall k, In k (map fst extra) -> ~ In k (map fst o)) ->
  spread o extra = app o extra.
Proof.
  revert o; induction extra as [|[k x] extra IH]; intros o Hnd Hdis; simpl.
  - now rewrite app_nil_r.
  - inversion Hnd as [|? ? Hk Hnd']; subst.
    unfold spread; simpl; rewrite set_prop_notin by (apply Hdis; now left).
    fold (spread (app o [(k, x)]) extra); rewrite IH, <- app_assoc; [reflexivity|exact Hnd'|].
    intros k' Hk'; rewrite map_app, in_app_iff; simpl.
    intros [H|[H|[]]]; [exact (Hdis k' (or_intror Hk') H)|subst; contradiction].
Qed.

Lemma metadata_copies_fst (get : string -> jsval) (l : list string) :
  map fst (flat_map (fun f => match get f with
                     | Some x => if falsy_json x then [] else [(f, x)]
                     | None => []
                     end) l)
  = filter (fun f => match get f with Some x => negb (falsy_json x) | None => false end) l.
Proof.
  induction l as [|f l IH]; simpl; [reflexivity|].
  rewrite map_app, IH.
  destruct (get f) as [x|]; [destruct (falsy_json x)|]; reflexivity.
Qed.

Definition indexed_document (index : nat) (v : json) : Document :=
  mkDocument (content_text (prop_of v) v)
    (app (base_metadata index) (metadata_copies (prop_of v))).

Lemma make_document_ok (v : json) (index : nat) :
  v <> JNull -> make_document v index = Ok (indexed_document index v).
Proof.
  intros Hv; unfold make_document.
  rewrite (extract_content_ok v Hv), (extract_metadata_ok v Hv); simpl.
  unfold indexed_document, metadata_copies; rewrite spread_disjoint; [reflexivity| |].
  - rewrite metadata_copies_fst; apply NoDup_filter, metadataFields_NoDup.
  - intros k Hk; apply metadata_copies_keys in Hk.
    simpl; intros [H|[H|[]]]; subst k; unfold metadataFields in Hk; simpl in Hk;
      repeat (destruct Hk as [Hk|Hk]; [discriminate Hk|]); exact Hk.
Qed.

Fixpoint indexed_documents (index : nat) (recs : list obj) : list Document :=
  match recs with
  | [] => []
  | fs :: rest => indexed_document index (JObj fs) :: indexed_documents (S index) rest
  end.

Lemma push_items_objs (recs : list obj) :
  forall index acc,
  push_items (map JObj recs) index acc = Ok (app acc (indexed_documents index recs)).
Proof.
  induction recs as [|fs recs IH]; intros index acc; cbn [map push_items].
  - now rewrite app_nil_r.
  - rewrite make_document_ok by discriminate; cbn [res_bind].
    rewrite IH, <- app_assoc; reflexivity.
Qed.

Lemma indexed_documents_metadata (recs : list obj) :
  forall index, map metadata (indexed_documents index recs) = indexed_metadata index recs.
Proof.
  induction recs as [|fs recs IH]; intros index;
    cbn [indexed_documents indexed_metadata map]; [reflexivity|].
  rewrite IH; reflexivity.
Qed.

(* ------------------------------------------------------------------ *)
(** ** C1: the document text of a record                                *)

(** C1 (as stated): a line "<field>: <value>" for every allow-listed field
    present in the record, else the pretty-printed record.  It fails: a
    field holding the empty string is skipped by the code. *)
Lemma C1_counterexample :
  extractContentFromItem (JObj [("nama", JStr EmptyString); ("name", JStr "x")])
  <> Ok (claim_content [("nama", JStr EmptyString); ("name", JStr "x")]).
Proof. vm_compute; discriminate. Qed.

(** C1 (amended): for every JSON record, the document text is the lines
    "<field>: <value>", in allow-list order and joined by newlines, of the
    allow-listed fields whose value is a non-empty string; when there is no
    such field it is the record pretty-printed by [JSON.stringify(item, null, 2)]. *)
Theorem C1_content_text (fs : obj) :
  extractContentFromItem (JObj fs)
  = Ok (match content_lines (fun f => lookup f fs) with
        | [] => json_stringify_pretty (JObj fs)
        | parts => join nl parts
        end).
Proof. apply extract_content_ok; discriminate. Qed.

(* ------------------------------------------------------------------ *)
(** ** C2: the metadata of a document                                   *)

(** C2 (as stated): every allow-listed field present is copied.  It
    fails: a field with a falsy value such as [0] is not copied. *)
Lemma C2_counterexample :
  match loadDocuments (JArr [JObj [("id", JNum 0)]]) with
  | Ok [d] => metadata d <> claim_metadata 0 [("id", JNum 0)]
  | _ => False
  end.
Proof. vm_compute; discriminate. Qed.

(** C2 (amended): the document of the record at position i of the dataset
    array has metadata {source: "dataset_umkm.json", index: i} followed by
    a copy of each allow-listed field whose value is not falsy (not null,
    false, 0 or the empty string), in allow-list order, and no other key. *)
Theorem C2_metadata (recs : list obj) :
  exists docs,
    loadDocuments (JArr (map JObj recs)) = Ok docs
    /\ map metadata docs = indexed_metadata 0 recs.
Proof.
  exists (indexed_documents 0 recs); split.
  - exact (push_items_objs recs 0 []).
  - apply indexed_documents_metadata.
Qed.

(* ------------------------------------------------------------------ *)
(** ** Runs of [askQuestion]                                            *)

(** The context block the chain builds from the retrieved documents. *)
Definition context_of (docs : list Document) : string :=
  join (nl ++ nl) (map pageContent docs).

Section Runs.

Variable similarity_search : list Document -> string -> res (list Document).
Variable chat_model : string -> res string.

(** Everything [askQuestion] does on an initialized service, one case per
    outcome of the two provider calls. *)
Lemma askQuestion_body_run (store : list Document) (q : string) (t : trace) :
  askQuestion_body similarity_search chat_model (mkRagService (Some store)) q t
  = match similarity_search store q with
    | Err e => (app t [ELog ("Processing query: " ++ q); ERetrieve q], Err e)
    | Ok docs =>
        let prompt := format_prompt (context_of docs) q in
        match chat_model prompt with
        | Err e =>
            (app t [ELog ("Processing query: " ++ q); ERetrieve q; EGenerate prompt], Err e)
        | Ok text =>
            (app t [ELog ("Processing query: " ++ q); ERetrieve q; EGenerate prompt],
             Ok (mkResponse (or_else (Some text) (or_else None no_answer))
                            (set_spread (render_sources docs 0))))
        end
    end.
Proof.
  unfold askQuestion_body, qa_call, bind, emit, lift, ret; cbn [qaChain].
  destruct (similarity_search store q) as [docs|e]; rewrite <- !app_assoc; [|reflexivity].
  unfold context_of; destruct (chat_model _) as [text|e]; rewrite <- ?app_assoc; reflexivity.
Qed.

Lemma askQuestion_run (svc : RagService) (q : string) (t : trace) :
  askQuestion similarity_search chat_model svc q t
  = match askQuestion_body similarity_search chat_model svc q t with
    | (t', Ok r) => (t', Ok r)
    | (t', Err e) =>
        (app t' [EError "Error processing query:" e], Err ("Failed to process query: " ++ e))
    end.
Proof.
  unfold askQuestion, catch, bind, emit, throw.
  destruct (askQuestion_body _ _ svc q t) as [t' [r|e]]; reflexivity.
Qed.

End Runs.

(* ------------------------------------------------------------------ *)
(** ** C7: [askQuestion] before initialization                          *)

(** C7: on a service whose QA chain has not been built, [askQuestion]
    fails with the "not initialized" error (wrapped by its catch) and its
    only effect is the error log: no retrieval and no generation call. *)
Theorem C7_not_initialized
  (similarity_search : list Document -> string -> res (list Document))
  (chat_model : string -> res string) (q : string) (t : trace) :
  askQuestion similarity_search chat_model new_service q t
  = (app t [EError "Error processing query:" "RAG system is not initialized"],
     Err ("Failed to process query: " ++ "RAG system is not initialized")).
Proof. reflexivity. Qed.

(* ------------------------------------------------------------------ *)
(** ** C8: errors of [askQuestion]                                      *)

Fixpoint count_retrievals (t : trace) : nat :=
  match t with
  | [] => 0
  | ERetrieve _ :: rest => S (count_retrievals rest)
  | _ :: rest => count_retrievals rest
  end.

Fixpoint count_generations (t : trace) : nat :=
  match t with
  | [] => 0
  | EGenerate _ :: rest => S (count_generations rest)
  | _ :: rest => count_generations rest
  end.

(** C8: when [askQuestion] fails, the error [e] raised inside it (the
    "not initialized" error, or an error of the retriever or of the chat
    model) was logged once and is re-raised once as
    "Failed to process query: <e>"; there was at most one retrieval and at
    most one generation call, and no result is returned. *)
Theorem C8_error_wrapping
  (similarity_search : list Document -> string -> res (list Document))
  (chat_model : string -> res string)
  (svc : RagService) (q : string) (t t' : trace) (m : string) :
  askQuestion similarity_search chat_model svc q t = (t', Err m) ->
  exists e added,
    askQuestion_body similarity_search chat_model svc q t = (app t added, Err e)
    /\ t' = app (app t added) [EError "Error processing query:" e]
    /\ m = "Failed to process query: " ++ e
    /\ count_retrievals added <= 1 /\ count_generations added <= 1
    /\ (e = "RAG system is not initialized"
        \/ (exists store, similarity_search store q = Err e)
        \/ (exists prompt, chat_model prompt = Err e)).
Proof.
  rewrite askQuestion_run.
  destruct svc as [[store|]].
  - rewrite askQuestion_body_run.
    destruct (similarity_search store q) as [docs|e] eqn:Hs.
    + cbv zeta.
      destruct (chat_model (format_prompt (context_of docs) q)) as [text|e] eqn:Hc;
        intros H; inversion H; subst.
      exists e, [ELog ("Processing query: " ++ q); ERetrieve q;
                 EGenerate (format_prompt (context_of docs) q)].
      repeat split; simpl; auto.
      right; right; eauto.
    + intros H; inversion H; subst.
      exists e, [ELog ("Processing query: " ++ q); ERetrieve q].
      repeat split; simpl; auto.
      right; left; eauto.
  - intros H; inversion H; subst.
    exists "RAG system is not initialized", []; rewrite app_nil_r.
    repeat split; simpl; auto.
Qed.

(** A retriever returning the whole store, and chat models for test runs. *)
Definition echo_search (store : list Document) (_ : string) : res (list Document) := Ok store.
Definition failing_chat (_ : string) : res string := Err "quota exceeded".
Definition constant_chat (text : string) (_ : string) : res string := Ok text.

(** C8 holds on a run where the chat model fails. *)
Lemma C8_error_wrapping_witness :
  askQuestion echo_search failing_chat (mkRagService (Some [])) "q" []
  = ([ELog "Processing query: q"; ERetrieve "q"; EGenerate (format_prompt (context_of []) "q");
      EError "Error processing query:" "quota exceeded"],
     Err "Failed to process query: quota exceeded")
  /\ exists e added,
    askQuestion_body echo_search failing_chat (mkRagService (Some [])) "q" []
      = (app [] added, Err e)
    /\ [ELog "Processing query: q"; ERetrieve "q"; EGenerate (format_prompt (context_of []) "q");
        EError "Error processing query:" "quota exceeded"]
       = app (app [] added) [EError "Error processing query:" e]
    /\ "Failed to process query: quota exceeded" = "Failed to process query: " ++ e
    /\ count_retrievals added <= 1 /\ count_generations added <= 1
    /\ (e = "RAG system is not initialized"
        \/ (exists store, echo_search store "q" = Err e)
        \/ (exists prompt, failing_chat prompt = Err e)).
Proof.
  split; [reflexivity|].
  apply (C8_error_wrapping echo_search failing_chat (mkRagService (Some [])) "q" []); reflexivity.
Defined.

(* ------------------------------------------------------------------ *)
(** ** C9: [getInsights]                                                *)

(** C9 (as stated): [getInsights] has the same result as [askQuestion] on
    its fixed prompt.  It fails when [askQuestion] fails: [getInsights]
    logs again and wraps the error a second time. *)
Lemma C9_counterexample :
  getInsights echo_search (constant_chat "a") new_service []
  <> askQuestion echo_search (constant_chat "a") new_service insights_prompt [].
Proof. vm_compute; discriminate. Qed.

(** C9 (amended): [getInsights] runs [askQuestion] on the fixed prompt
    [insights_prompt] and nothing else; when that succeeds it returns the
    same response with the same effects, and when it fails with message [e]
    it logs and fails with "Failed to generate insights: <e>". *)
Theorem C9_insights_delegates
  (similarity_search : list Document -> string -> res (list Document))
  (chat_model : string -> res string) (svc : RagService) (t : trace) :
  getInsights similarity_search chat_model svc t
  = match askQuestion similarity_search chat_model svc insights_prompt t with
    | (t', Ok r) => (t', Ok r)
    | (t', Err e) =>
        (app t' [EError "Error getting insights:" e], Err ("Failed to generate insights: " ++ e))
    end.
Proof.
  unfold getInsights, catch, bind, emit, throw.
  destruct (askQuestion _ _ svc insights_prompt t) as [t' [r|e]]; reflexivity.
Qed.

(* ------------------------------------------------------------------ *)
(** ** C4: the [sources] of a response                                  *)

(** The claimed rendering: "<source> (Document <index>)", with
    "Unknown source" when the source is missing and the position when the
    index is missing. *)
Fixpoint claim_render (docs : list Document) (pos : nat) : list string :=
  match docs with
  | [] => []
  | d :: rest =>
      let source := match lookup "source" (metadata d) with
                    | Some v => js_to_string v
                    | None => "Unknown source"
                    end in
      let idx := match lookup "index" (metadata d) with
                 | Some v => js_to_string v
                 | None => string_of_N (N.of_nat pos)
                 end in
      (source ++ " (Document " ++ idx ++ ")") :: claim_render rest (S pos)
  end.

(** Removing duplicates: keep a string unless it was already kept. *)
Fixpoint dedup_from (seen : list string) (l : list string) : list string :=
  match l with
  | [] => []
  | x :: rest =>
      if existsb (String.eqb x) seen then dedup_from seen rest
      else x :: dedup_from (x :: seen) rest
  end.

Lemma existsb_eqb_In (x : string) (l : list string) :
  existsb (String.eqb x) l = true <-> In x l.
Proof.
  rewrite existsb_exists; split.
  - intros [y [Hy Heq]]; apply String.eqb_eq in Heq; now subst.
  - intros H; exists x; split; [exact H|apply String.eqb_refl].
Qed.

Lemma dedup_from_ext (l : list string) :
  forall s1 s2, (forall y, In y s1 <-> In y s2) -> dedup_from s1 l = dedup_from s2 l.
Proof.
  induction l as [|x l IH]; intros s1 s2 Hs; simpl; [reflexivity|].
  destruct (existsb (String.eqb x) s1) eqn:E1, (existsb (String.eqb x) s2) eqn:E2.
  - now apply IH.
  - apply existsb_eqb_In, Hs, existsb_eqb_In in E1; congruence.
  - apply existsb_eqb_In, Hs, existsb_eqb_In in E2; congruence.
  - f_equal; apply IH; intros y; simpl; rewrite Hs; tauto.
Qed.

Lemma set_spread_acc (l : list string) :
  forall acc,
  fold_left (fun acc x => if existsb (String.eqb x) acc then acc else app acc [x]) l acc
  = app acc (dedup_from acc l).
Proof.
  induction l as [|x l IH]; intros acc; simpl; [now rewrite app_nil_r|].
  destruct (existsb (String.eqb x) acc) eqn:E; rewrite IH; [reflexivity|].
  rewrite <- app_assoc; simpl; f_equal; f_equal.
  apply dedup_from_ext; intros y; rewrite in_app_iff; simpl; tauto.
Qed.

Lemma dedup_from_spec (l : list string) :
  forall seen,
  NoDup (dedup_from seen l)
  /\ forall s, In s (dedup_from seen l) <-> In s l /\ ~ In s seen.
Proof.
  induction l as [|x l IH]; intros seen; simpl.
  - split; [constructor|tauto].
  - destruct (existsb (String.eqb x) seen) eqn:E.
    + apply existsb_eqb_In in E.
      destruct (IH seen) as [Hnd Hin]; split; [exact Hnd|].
      intros s; rewrite Hin; split; [tauto|].
      intros [[<-|H] Hn]; tauto.
    + assert (Hx : ~ In x seen) by (rewrite <- existsb_eqb_In; congruence).
      destruct (IH (x :: seen)) as [Hnd Hin]; split.
      * constructor; [|exact Hnd]; rewrite Hin; simpl; tauto.
      * intros s; simpl; rewrite Hin; simpl.
        split; [intros [<-|[H1 H2]]; tauto|].
        intros [[<-|H1] H2]; [now left|].
        destruct (String.eqb_spec x s) as [<-|Hne]; [now left|right; tauto].
Qed.

Lemma make_document_inv (v : json) (index : nat) (d : Document) :
  make_document v index = Ok d -> d = indexed_document index v.
Proof.
  intros H; assert (Hv : v <> JNull) by (intros ->; discriminate H).
  rewrite make_document_ok in H by exact Hv; congruence.
Qed.

Lemma push_items_inv (items : list json) :
  forall index acc out,
  push_items items index acc = Ok out ->
  forall d, In d out -> In d acc \/ exists i v, d = indexed_document i v.
Proof.
  induction items as [|item items IH]; intros index acc out H d Hd; cbn [push_items] in H.
  - inversion H; subst; now left.
  - destruct (make_document item index) as [d'|e] eqn:Hm; cbn [res_bind] in H; [|discriminate H].
    apply make_document_inv in Hm; subst d'.
    destruct (IH _ _ _ H d Hd) as [Hin|Hex]; [|now right].
    apply in_app_iff in Hin; destruct Hin as [Hin|[<-|[]]]; [now left|].
    right; eauto.
Qed.

Lemma loadDocuments_single (data : json) :
  is_array data = false ->
  loadDocuments data = res_bind (make_document data 0) (fun d => Ok [d]).
Proof. destruct data; (discriminate || reflexivity). Qed.

Lemma loadDocuments_inv (data : json) (store : list Document) :
  loadDocuments data = Ok store ->
  forall d, In d store -> exists i v, d = indexed_document i v.
Proof.
  intros H d Hd; destruct (is_array data) eqn:Ha.
  - destruct data as [| | | |items|fs]; try discriminate Ha.
    destruct (push_items_inv items 0 [] store H d Hd) as [[]|Hex]; exact Hex.
  - rewrite (loadDocuments_single data Ha) in H.
    destruct (make_document data 0) as [d'|e] eqn:Hm; cbn [res_bind] in H; [|discriminate H].
    injection H as <-; destruct Hd as [<-|[]].
    apply make_document_inv in Hm; subst; eauto.
Qed.

Lemma render_sources_loaded (docs : list Document) :
  (forall d, In d docs -> exists i v, d = indexed_document i v) ->
  forall pos, render_sources docs pos = claim_render docs pos.
Proof.
  induction docs as [|d docs IH]; intros Hdocs pos; [reflexivity|].
  destruct (Hdocs d (or_introl eq_refl)) as [i [v ->]].
  cbn [render_sources claim_render]; f_equal.
  apply IH; intros d' Hd'; apply Hdocs; now right.
Qed.

Lemma initializeRag_inv (embed_documents : list Document -> res unit)
  (apiKey : option string) (data : json) (t t' : trace) (svc : RagService) :
  initializeRag embed_documents apiKey data t = (t', Ok svc) ->
  exists store, loadDocuments data = Ok store /\ svc = mkRagService (Some store).
Proof.
  unfold initializeRag, loadDocuments_M, catch, bind, emit, ret, lift, throw.
  destruct (truthy (option_map JStr apiKey)); [|discriminate].
  destruct (loadDocuments data) as [docs|e]; [|discriminate].
  destruct (embed_documents docs) as [[]|e]; [|discriminate].
  intros H; inversion H; eauto.
Qed.

Definition embed_ok (_ : list Document) : res unit := Ok tt.

(** C4: on a service built by [initializeRag], when the retriever returns
    documents [ds] of the store, the [sources] of the response are the
    strings "<source> (Document <index>)" rendered from the metadata of
    [ds] in order ("Unknown source" for a missing source, the position for
    a missing index), with exact duplicates removed: the first occurrence
    of each is kept, no string repeats, and the same strings occur. *)
Theorem C4_sources
  (embed_documents : list Document -> res unit)
  (similarity_search : list Document -> string -> res (list Document))
  (chat_model : string -> res string)
  (apiKey : option string) (data : json) (t0 t1 : trace) (store : list Document)
  (q : string) (ds : list Document) (t t' : trace) (r : RagQueryResponse) :
  initializeRag embed_documents apiKey data t0 = (t1, Ok (mkRagService (Some store))) ->
  similarity_search store q = Ok ds ->
  incl ds store ->
  askQuestion similarity_search chat_model (mkRagService (Some store)) q t = (t', Ok r) ->
  sources r = dedup_from [] (claim_render ds 0)
  /\ NoDup (sources r)
  /\ (forall s, In s (sources r) <-> In s (claim_render ds 0)).
Proof.
  intros Hinit Hs Hincl Hask.
  destruct (initializeRag_inv _ _ _ _ _ _ Hinit) as [store' [Hload Heq]].
  inversion Heq; subst store'.
  rewrite askQuestion_run, askQuestion_body_run, Hs in Hask; cbv zeta in Hask.
  destruct (chat_model _) as [text|e]; inversion Hask; subst r; cbn [sources].
  rewrite (render_sources_loaded ds) by
    (intros d Hd; exact (loadDocuments_inv data store Hload d (Hincl d Hd))).
  unfold set_spread; rewrite set_spread_acc; cbn [app].
  destruct (dedup_from_spec (claim_render ds 0) []) as [Hnd Hin].
  repeat split; [exact Hnd| |]; intros H; apply Hin in H || (apply Hin; split); tauto.
Qed.

(** A one-record dataset for test runs. *)
Definition sample_data : json := JArr [JObj [("nama", JStr "Toko A"); ("id", JNum 7)]].
Definition sample_store : list Document :=
  indexed_documents 0 [[("nama", JStr "Toko A"); ("id", JNum 7)]].
Definition sample_response : RagQueryResponse :=
  mkResponse "ok" ["dataset_umkm.json (Document 0)"].

(** C4 holds on a run over the one-record dataset. *)
Lemma C4_sources_witness :
  initializeRag embed_ok (Some "key") sample_data []
    = (fst (initializeRag embed_ok (Some "key") sample_data []),
       Ok (mkRagService (Some sample_store)))
  /\ echo_search sample_store "q" = Ok sample_store
  /\ incl sample_store sample_store
  /\ askQuestion echo_search (constant_chat "ok") (mkRagService (Some sample_store)) "q" []
     = (fst (askQuestion echo_search (constant_chat "ok") (mkRagService (Some sample_store)) "q" []),
        Ok sample_response)
  /\ sources sample_response = dedup_from [] (claim_render sample_store 0)
  /\ NoDup (sources sample_response)
  /\ (forall s, In s (sources sample_response) <-> In s (claim_render sample_store 0)).
Proof.
  assert (H1 : initializeRag embed_ok (Some "key") sample_data []
    = (fst (initializeRag embed_ok (Some "key") sample_data []),
       Ok (mkRagService (Some sample_store)))) by (vm_compute; reflexivity).
  assert (H4 : askQuestion echo_search (constant_chat "ok") (mkRagService (Some sample_store)) "q" []
     = (fst (askQuestion echo_search (constant_chat "ok") (mkRagService (Some sample_store)) "q" []),
        Ok sample_response)) by (vm_compute; reflexivity).
  split; [exact H1|]; split; [reflexivity|]; split; [apply incl_refl|]; split; [exact H4|].
  exact (C4_sources embed_ok echo_search (constant_chat "ok") (Some "key") sample_data [] _
           sample_store "q" sample_store [] _ sample_response H1 eq_refl (incl_refl _) H4).
Defined.

(* ------------------------------------------------------------------ *)
(** ** C5: the [answer] of a response                                   *)

(** C5 (as stated): the answer is the generated text.  It fails when the
    model generates the empty string: the answer is then the fallback. *)
Lemma C5_counterexample :
  match snd (askQuestion echo_search (constant_chat EmptyString) (mkRagService (Some [])) "q" []) with
  | Ok r => answer r <> EmptyString
  | Err _ => False
  end.
Proof. vm_compute; discriminate. Qed.

(** C5 (amended): when [askQuestion] succeeds, the chain retrieved
    documents and the chat model generated a text for the composed prompt;
    the answer is that text when it is non-empty, and the fixed message
    "Tidak dapat menemukan jawaban yang sesuai." when it is empty. *)
Theorem C5_answer
  (similarity_search : list Document -> string -> res (list Document))
  (chat_model : string -> res string)
  (svc : RagService) (q : string) (t t' : trace) (r : RagQueryResponse) :
  askQuestion similarity_search chat_model svc q t = (t', Ok r) ->
  exists store docs text,
    qaChain svc = Some store
    /\ similarity_search store q = Ok docs
    /\ chat_model (format_prompt (context_of docs) q) = Ok text
    /\ answer r = (if String.eqb text EmptyString then no_answer else text).
Proof.
  rewrite askQuestion_run; destruct svc as [[store|]]; [|discriminate].
  rewrite askQuestion_body_run.
  destruct (similarity_search store q) as [docs|e] eqn:Hs; [|discriminate]; cbv zeta.
  destruct (chat_model (format_prompt (context_of docs) q)) as [text|e] eqn:Hc; [|discriminate].
  intros H; inversion H; subst r.
  exists store, docs, text; repeat split; auto.
Qed.

(** C5 holds on a run where the model answers "ok". *)
Lemma C5_answer_witness :
  askQuestion echo_search (constant_chat "ok") (mkRagService (Some sample_store)) "q" []
     = (fst (askQuestion echo_search (constant_chat "ok") (mkRagService (Some sample_store)) "q" []),
        Ok sample_response)
  /\ exists store docs text,
    qaChain (mkRagService (Some sample_store)) = Some store
    /\ echo_search store "q" = Ok docs
    /\ constant_chat "ok" (format_prompt (context_of docs) "q") = Ok text
    /\ answer sample_response = (if String.eqb text EmptyString then no_answer else text).
Proof.
  assert (H : askQuestion echo_search (constant_chat "ok") (mkRagService (Some sample_store)) "q" []
     = (fst (askQuestion echo_search (constant_chat "ok") (mkRagService (Some sample_store)) "q" []),
        Ok sample_response)) by (vm_compute; reflexivity).
  split; [exact H|].
  exact (C5_answer echo_search (constant_chat "ok") _ "q" [] _ _ H).
Defined.

(* ------------------------------------------------------------------ *)
(** ** C6: the question of a [POST /rag/query] request                  *)

Example trim_spaces : trim " Toko A  " = "Toko A".
Proof. vm_compute; reflexivity. Qed.

(** C6 (as stated): the raw question is the retrieval query and the text
    put in the template, unchanged.  It fails: the controller trims it, so
    for the question " hi" the retriever and the prompt get "hi". *)
Lemma C6_counterexample :
  fst (controller_query echo_search (constant_chat "a") (mkRagService (Some [])) " hi" [])
  = [ELog "Processing query: hi"; ERetrieve "hi"; EGenerate (format_prompt (context_of []) "hi")]
  /\ " hi" <> "hi".
Proof. split; [vm_compute; reflexivity | discriminate]. Qed.

(** C6 (amended): for every request on an initialized service, the
    question with leading and trailing whitespace removed
    ([String.prototype.trim]) and otherwise unchanged is the retrieval query
    and the question substituted into the fixed template: the request makes
    a retrieval call for it, every retrieval call is for it, and every
    generation call is for the template filled with the retrieved context
    and it. *)
Theorem C6_trimmed_question
  (similarity_search : list Document -> string -> res (list Document))
  (chat_model : string -> res string)
  (store : list Document) (question : string) (t : trace) :
  exists added,
    fst (controller_query similarity_search chat_model (mkRagService (Some store)) question t)
      = app t added
    /\ In (ERetrieve (trim question)) added
    /\ (forall x, In (ERetrieve x) added -> x = trim question)
    /\ (forall p, In (EGenerate p) added ->
          exists docs, similarity_search store (trim question) = Ok docs
                       /\ p = format_prompt (context_of docs) (trim question)).
Proof.
  set (q := trim question).
  assert (Hfst : fst (controller_query similarity_search chat_model (mkRagService (Some store)) question t)
                 = fst (askQuestion similarity_search chat_model (mkRagService (Some store)) q t)).
  { unfold controller_query, bind, ret; fold q.
    destruct (askQuestion _ _ _ q t) as [t' [r|e]]; reflexivity. }
  rewrite Hfst, askQuestion_run, askQuestion_body_run.
  destruct (similarity_search store q) as [docs|e] eqn:Hs; cbv zeta.
  - destruct (chat_model (format_prompt (context_of docs) q)) as [text|e]; cbn [fst];
      [exists [ELog ("Processing query: " ++ q); ERetrieve q;
               EGenerate (format_prompt (context_of docs) q)]
      |exists [ELog ("Processing query: " ++ q); ERetrieve q;
               EGenerate (format_prompt (context_of docs) q);
               EError "Error processing query:" e]];
      (split; [rewrite <- ?app_assoc; reflexivity|]);
      (split; [simpl; tauto|]);
      split; intros x Hx; simpl in Hx; intuition (try congruence);
      exists docs; split; congruence.
  - exists [ELog ("Processing query: " ++ q); ERetrieve q; EError "Error processing query:" e];
      cbn [fst]; split; [rewrite <- app_assoc; reflexivity|].
    split; [simpl; tauto|].
    split; intros x Hx; simpl in Hx; intuition congruence.
Qed.

(* ------------------------------------------------------------------ *)
(** ** C10: a dataset that is not an array                              *)

(** C10 (as stated): any non-array dataset gives one document.  It fails
    for [null]: reading a field of [null] throws, and initialization fails. *)
Lemma C10_counterexample :
  is_array JNull = false
  /\ match loadDocuments JNull with Ok _ => False | Err _ => True end
  /\ match snd (initializeRag embed_ok (Some "key") JNull []) with Ok _ => False | Err _ => True end.
Proof. vm_compute; repeat split. Qed.

(** C10 (amended): when the dataset parses to a value that is neither an
    array nor [null], [loadDocuments] succeeds with exactly one document,
    built from that value as a single record, whose metadata index is 0;
    and initialization with a configured key and a successful embedding
    builds the QA chain over that document.  When the dataset parses to
    [null], [loadDocuments] fails with the [TypeError] of reading a field of
    [null], and so does initialization whenever a key is configured (without
    a key it fails earlier, on the key check). *)
Theorem C10_single_value (v : json) :
  (is_array v = false -> v <> JNull ->
   loadDocuments v = Ok [indexed_document 0 v]
   /\ make_document v 0 = Ok (indexed_document 0 v)
   /\ lookup "index" (metadata (indexed_document 0 v)) = Some (JNum 0)
   /\ (forall (embed_documents : list Document -> res unit) (key : string) (t : trace),
         key <> EmptyString -> embed_documents [indexed_document 0 v] = Ok tt ->
         snd (initializeRag embed_documents (Some key) v t)
         = Ok (mkRagService (Some [indexed_document 0 v]))))
  /\ loadDocuments JNull = Err "Cannot read properties of null (reading 'nama')"
  /\ (forall (embed_documents : list Document -> res unit) (apiKey : option string) (t : trace),
        snd (initializeRag embed_documents apiKey JNull t)
        = Err (if truthy (option_map JStr apiKey)
               then "Cannot read properties of null (reading 'nama')"
               else "GEMINI_API_KEY is not configured")).
Proof.
  assert (Hnull : loadDocuments JNull = Err "Cannot read properties of null (reading 'nama')")
    by reflexivity.
  split; [|split; [exact Hnull|]].
  - intros Ha Hv.
    assert (Hload : loadDocuments v = Ok [indexed_document 0 v]).
    { rewrite (loadDocuments_single v Ha), (make_document_ok v 0 Hv); reflexivity. }
    split; [exact Hload|]; split; [exact (make_document_ok v 0 Hv)|]; split; [reflexivity|].
    intros embed_documents key t Hk He.
    unfold initializeRag, loadDocuments_M, catch, bind, emit, ret, lift, throw.
    assert (Ht : truthy (option_map JStr (Some key)) = true).
    { cbn; destruct (String.eqb_spec key EmptyString); [contradiction|reflexivity]. }
    rewrite Ht, Hload, He; reflexivity.
  - intros embed_documents apiKey t.
    unfold initializeRag, loadDocuments_M, catch, bind, emit, ret, lift, throw.
    destruct (truthy (option_map JStr apiKey)); [rewrite Hnull|]; reflexivity.
Qed.

(** C10 holds for a dataset that is a single object. *)
Lemma C10_single_value_witness :
  is_array (JObj [("nama", JStr "Toko A")]) = false /\ JObj [("nama", JStr "Toko A")] <> JNull
  /\ loadDocuments (JObj [("nama", JStr "Toko A")])
     = Ok [indexed_document 0 (JObj [("nama", JStr "Toko A")])]
  /\ make_document (JObj [("nama", JStr "Toko A")]) 0
     = Ok (indexed_document 0 (JObj [("nama", JStr "Toko A")]))
  /\ lookup "index" (metadata (indexed_document 0 (JObj [("nama", JStr "Toko A")]))) = Some (JNum 0)
  /\ (forall (embed_documents : list Document -> res unit) (key : string) (t : trace),
        key <> EmptyString ->
        embed_documents [indexed_document 0 (JObj [("nama", JStr "Toko A")])] = Ok tt ->
        snd (initializeRag embed_documents (Some key) (JObj [("nama", JStr "Toko A")]) t)
        = Ok (mkRagService (Some [indexed_document 0 (JObj [("nama", JStr "Toko A")])]))).
Proof.
  split; [reflexivity|]; split; [discriminate|].
  apply (proj1 (C10_single_value (JObj [("nama", JStr "Toko A")]))); [reflexivity|discriminate].
Defined.

(* ================================================================== *)
(** * Further properties of the service                                 *)

(* ------------------------------------------------------------------ *)
(** ** The document loader on arrays                                    *)

Fixpoint indexed_values (index : nat) (items : list json) : list Document :=
  match items with
  | [] => []
  | v :: rest => indexed_document index v :: indexed_values (S index) rest
  end.

Lemma push_items_nonnull (items : list json) :
  Forall (fun v => v <> JNull) items ->
  forall index acc, push_items items index acc = Ok (app acc (indexed_values index items)).
Proof.
  induction 1 as [|v items Hv Hitems IH]; intros index acc; cbn [push_items indexed_values].
  - now rewrite app_nil_r.
  - rewrite make_document_ok by exact Hv; cbn [res_bind].
    rewrite IH, <- app_assoc; reflexivity.
Qed.

Lemma push_items_null (items : list json) :
  In JNull items ->
  forall index acc,
  push_items items index acc = Err "Cannot read properties of null (reading 'nama')".
Proof.
  induction items as [|v items IH]; intros Hin index acc; [destruct Hin|].
  destruct v as [|b|n|s|l|fs]; [reflexivity| | | | |];
    (destruct Hin as [Hin|Hin]; [discriminate Hin|]);
    cbn [push_items]; rewrite make_document_ok by discriminate; cbn [res_bind];
    apply IH; exact Hin.
Qed.

Lemma indexed_values_length (items : list json) :
  forall index, length (indexed_values index items) = length items.
Proof. induction items; intros; simpl; auto. Qed.

Lemma indexed_values_nth (items : list json) :
  forall index i, nth_error (indexed_values index items) i
                  = option_map (indexed_document (index + i)) (nth_error items i).
Proof.
  induction items as [|v items IH]; intros index i; [destruct i; reflexivity|].
  destruct i as [|i]; cbn [indexed_values nth_error].
  - now rewrite Nat.add_0_r.
  - rewrite IH; f_equal; f_equal; lia.
Qed.

(** X1: when any element of the dataset array is [null], loading fails as
    a whole with the [TypeError] of reading the first content field. *)
Theorem X1_null_item_fails (items : list json) :
  In JNull items ->
  loadDocuments (JArr items) = Err "Cannot read properties of null (reading 'nama')".
Proof. intros Hin; exact (push_items_null items Hin 0 []). Qed.

Lemma X1_null_item_fails_witness :
  In JNull [JObj [("nama", JStr "A")]; JNull]
  /\ loadDocuments (JArr [JObj [("nama", JStr "A")]; JNull])
     = Err "Cannot read properties of null (reading 'nama')".
Proof.
  split; [simpl; auto|].
  apply X1_null_item_fails; simpl; auto.
Defined.

(** X2: when no element of the dataset array is [null], loading gives one
    document per element, in order: the document at position i is built
    from the element at position i and carries the index i. *)
Theorem X2_one_document_per_item (items : list json) :
  Forall (fun v => v <> JNull) items ->
  exists store,
    loadDocuments (JArr items) = Ok store
    /\ length store = length items
    /\ (forall i item, nth_error items i = Some item ->
          nth_error store i = Some (indexed_document i item)
          /\ make_document item i = Ok (indexed_document i item)
          /\ lookup "index" (metadata (indexed_document i item)) = Some (JNum (Z.of_nat i))).
Proof.
  intros Hall; exists (indexed_values 0 items); split; [|split].
  - exact (push_items_nonnull items Hall 0 []).
  - apply indexed_values_length.
  - intros i item Hi; rewrite indexed_values_nth, Hi; split; [reflexivity|].
    assert (Hv : item <> JNull).
    { apply nth_error_In in Hi; rewrite Forall_forall in Hall; exact (Hall item Hi). }
    split; [exact (make_document_ok item i Hv)|reflexivity].
Qed.

Lemma X2_one_document_per_item_witness :
  Forall (fun v => v <> JNull) [JObj [("nama", JStr "A")]; JStr "B"]
  /\ exists store,
    loadDocuments (JArr [JObj [("nama", JStr "A")]; JStr "B"]) = Ok store
    /\ length store = length [JObj [("nama", JStr "A")]; JStr "B"]
    /\ (forall i item, nth_error [JObj [("nama", JStr "A")]; JStr "B"] i = Some item ->
          nth_error store i = Some (indexed_document i item)
          /\ make_document item i = Ok (indexed_document i item)
          /\ lookup "index" (metadata (indexed_document i item)) = Some (JNum (Z.of_nat i))).
Proof.
  assert (H : Forall (fun v => v <> JNull) [JObj [("nama", JStr "A")]; JStr "B"])
    by (repeat constructor; discriminate).
  split; [exact H|]; exact (X2_one_document_per_item _ H).
Defined.

(** X3: a dataset element that is not an object (a string, number, boolean
    or array) becomes a document whose text is its JSON rendering and whose
    metadata is only the source label and the index. *)
Theorem X3_non_object_item (v : json) (index : nat) :
  v <> JNull -> (forall fs, v <> JObj fs) ->
  make_document v index = Ok (mkDocument (json_stringify_pretty v) (base_metadata index)).
Proof.
  intros Hv Ho; rewrite (make_document_ok v index Hv).
  destruct v as [|b|n|s|l|fs]; [contradiction| | | | |exfalso; exact (Ho fs eq_refl)];
    reflexivity.
Qed.

Lemma X3_non_object_item_witness :
  JStr "Toko A" <> JNull /\ (forall fs, JStr "Toko A" <> JObj fs)
  /\ make_document (JStr "Toko A") 3
     = Ok (mkDocument (json_stringify_pretty (JStr "Toko A")) (base_metadata 3)).
Proof.
  assert (H1 : JStr "Toko A" <> JNull) by discriminate.
  assert (H2 : forall fs, JStr "Toko A" <> JObj fs) by discriminate.
  split; [exact H1|]; split; [exact H2|]; exact (X3_non_object_item _ 3 H1 H2).
Defined.

(* ------------------------------------------------------------------ *)
(** ** Invariants of loaded documents                                   *)

(** X4: every document [loadDocuments] produces carries the source label
    "dataset_umkm.json" and a numeric index: the copied record fields never
    override them. *)
Theorem X4_loaded_source_index (data : json) (store : list Document) :
  loadDocuments data = Ok store ->
  forall d, In d store ->
    lookup "source" (metadata d) = Some (JStr "dataset_umkm.json")
    /\ exists i : nat, lookup "index" (metadata d) = Some (JNum (Z.of_nat i)).
Proof.
  intros H d Hd; destruct (loadDocuments_inv data store H d Hd) as [i [v ->]].
  split; [reflexivity|]; exists i; reflexivity.
Qed.

Lemma X4_loaded_source_index_witness :
  loadDocuments sample_data = Ok sample_store
  /\ forall d, In d sample_store ->
    lookup "source" (metadata d) = Some (JStr "dataset_umkm.json")
    /\ exists i : nat, lookup "index" (metadata d) = Some (JNum (Z.of_nat i)).
Proof.
  assert (H : loadDocuments sample_data = Ok sample_store) by (vm_compute; reflexivity).
  split; [exact H|]; exact (X4_loaded_source_index _ _ H).
Defined.

Lemma append_nonempty (a b : string) : b <> EmptyString -> a ++ b <> EmptyString.
Proof. destruct a; simpl; [auto|discriminate]. Qed.

Lemma digits_aux_nonempty (fuel : nat) :
  forall n acc, digits_aux (S fuel) n acc <> EmptyString.
Proof.
  induction fuel as [|fuel IH]; intros n acc; cbn [digits_aux].
  - destruct (N.eqb (N.div n 10) 0); discriminate.
  - destruct (N.eqb (N.div n 10) 0); [discriminate|apply IH].
Qed.

Lemma stringify_at_nonempty (ind : string) (v : json) :
  stringify_at ind v <> EmptyString.
Proof.
  destruct v as [|b|n|s|l|fs]; cbn [stringify_at].
  - discriminate.
  - destruct b; discriminate.
  - destruct n; cbn [string_of_Z]; [| |discriminate]; apply digits_aux_nonempty.
  - discriminate.
  - destruct l; discriminate.
  - destruct fs; discriminate.
Qed.

Lemma content_lines_nonempty (get : string -> jsval) (x : string) :
  In x (content_lines get) -> x <> EmptyString.
Proof.
  unfold content_lines; rewrite in_flat_map; intros [f [_ Hx]].
  destruct (get f) as [[| | |s| |]|]; try destruct Hx.
  destruct (String.eqb s EmptyString); [destruct Hx|].
  destruct Hx as [<-|[]]; apply append_nonempty; discriminate.
Qed.

(** X5: the text of every document [loadDocuments] produces is non-empty. *)
Theorem X5_loaded_text_nonempty (data : json) (store : list Document) :
  loadDocuments data = Ok store ->
  forall d, In d store -> pageContent d <> EmptyString.
Proof.
  intros H d Hd; destruct (loadDocuments_inv data store H d Hd) as [i [v ->]].
  cbn [pageContent indexed_document]; unfold content_text.
  pose proof (content_lines_nonempty (prop_of v)) as Hne.
  destruct (content_lines (prop_of v)) as [|x rest]; [apply stringify_at_nonempty|].
  destruct rest; cbn [join]; [apply Hne; now left|].
  apply append_nonempty; discriminate.
Qed.

Lemma X5_loaded_text_nonempty_witness :
  loadDocuments sample_data = Ok sample_store
  /\ forall d, In d sample_store -> pageContent d <> EmptyString.
Proof.
  assert (H : loadDocuments sample_data = Ok sample_store) by (vm_compute; reflexivity).
  split; [exact H|]; exact (X5_loaded_text_nonempty _ _ H).
Defined.

(* ------------------------------------------------------------------ *)
(** ** Successful runs of [askQuestion]                                 *)

Lemma dedup_from_length (l : list string) :
  forall seen, length (dedup_from seen l) <= length l.
Proof.
  induction l as [|x l IH]; intros seen; simpl; [lia|].
  destruct (existsb (String.eqb x) seen); simpl.
  - specialize (IH seen); lia.
  - specialize (IH (x :: seen)); lia.
Qed.

Lemma render_sources_length (docs : list Document) :
  forall pos, length (render_sources docs pos) = length docs.
Proof. induction docs; intros; simpl; auto. Qed.

Lemma no_answer_nonempty : no_answer <> EmptyString.
Proof. discriminate. Qed.

(** X6: when [askQuestion] succeeds, its [sources] hold no string twice
    and are at most as many as the documents retrieved, and its [answer]
    is never the empty string. *)
Theorem X6_response_shape
  (similarity_search : list Document -> string -> res (list Document))
  (chat_model : string -> res string)
  (svc : RagService) (q : string) (t t' : trace) (r : RagQueryResponse) :
  askQuestion similarity_search chat_model svc q t = (t', Ok r) ->
  exists store docs,
    qaChain svc = Some store
    /\ similarity_search store q = Ok docs
    /\ NoDup (sources r)
    /\ length (sources r) <= length docs
    /\ answer r <> EmptyString.
Proof.
  rewrite askQuestion_run; destruct svc as [[store|]]; [|discriminate].
  rewrite askQuestion_body_run.
  destruct (similarity_search store q) as [docs|e] eqn:Hs; [|discriminate]; cbv zeta.
  destruct (chat_model (format_prompt (context_of docs) q)) as [text|e]; [|discriminate].
  intros H; inversion H; subst r; cbn [sources answer].
  exists store, docs; split; [reflexivity|]; split; [exact Hs|].
  unfold set_spread; rewrite set_spread_acc; cbn [app].
  split; [exact (proj1 (dedup_from_spec _ []))|]; split.
  - rewrite <- (render_sources_length docs 0); apply dedup_from_length.
  - unfold or_else; destruct (String.eqb_spec text EmptyString); [discriminate|assumption].
Qed.

Lemma X6_response_shape_witness :
  askQuestion echo_search (constant_chat "ok") (mkRagService (Some sample_store)) "q" []
     = (fst (askQuestion echo_search (constant_chat "ok") (mkRagService (Some sample_store)) "q" []),
        Ok sample_response)
  /\ exists store docs,
    qaChain (mkRagService (Some sample_store)) = Some store
    /\ echo_search store "q" = Ok docs
    /\ NoDup (sources sample_response)
    /\ length (sources sample_response) <= length docs
    /\ answer sample_response <> EmptyString.
Proof.
  assert (H : askQuestion echo_search (constant_chat "ok") (mkRagService (Some sample_store)) "q" []
     = (fst (askQuestion echo_search (constant_chat "ok") (mkRagService (Some sample_store)) "q" []),
        Ok sample_response)) by (vm_compute; reflexivity).
  split; [exact H|]; exact (X6_response_shape _ _ _ _ _ _ _ H).
Defined.

(** X7: a successful [askQuestion] logs the query, then makes exactly one
    retrieval call (for the query) and one generation call (for the
    template filled with the retrieved context and the query), and logs no
    error. *)
Theorem X7_success_effects
  (similarity_search : list Document -> string -> res (list Document))
  (chat_model : string -> res string)
  (svc : RagService) (q : string) (t t' : trace) (r : RagQueryResponse) :
  askQuestion similarity_search chat_model svc q t = (t', Ok r) ->
  exists store docs,
    qaChain svc = Some store
    /\ similarity_search store q = Ok docs
    /\ t' = app t [ELog ("Processing query: " ++ q); ERetrieve q;
                   EGenerate (format_prompt (context_of docs) q)].
Proof.
  rewrite askQuestion_run; destruct svc as [[store|]]; [|discriminate].
  rewrite askQuestion_body_run.
  destruct (similarity_search store q) as [docs|e] eqn:Hs; [|discriminate]; cbv zeta.
  destruct (chat_model (format_prompt (context_of docs) q)) as [text|e]; [|discriminate].
  intros H; inversion H; subst.
  exists store, docs; auto.
Qed.

Lemma X7_success_effects_witness :
  askQuestion echo_search (constant_chat "ok") (mkRagService (Some sample_store)) "q" []
     = (fst (askQuestion echo_search (constant_chat "ok") (mkRagService (Some sample_store)) "q" []),
        Ok sample_response)
  /\ exists store docs,
    qaChain (mkRagService (Some sample_store)) = Some store
    /\ echo_search store "q" = Ok docs
    /\ fst (askQuestion echo_search (constant_chat "ok") (mkRagService (Some sample_store)) "q" [])
       = app [] [ELog ("Processing query: " ++ "q"); ERetrieve "q";
                 EGenerate (format_prompt (context_of docs) "q")].
Proof.
  assert (H : askQuestion echo_search (constant_chat "ok") (mkRagService (Some sample_store)) "q" []
     = (fst (askQuestion echo_search (constant_chat "ok") (mkRagService (Some sample_store)) "q" []),
        Ok sample_response)) by (vm_compute; reflexivity).
  split; [exact H|]; exact (X7_success_effects _ _ _ _ _ _ _ H).
Defined.

(* ------------------------------------------------------------------ *)
(** ** The query the controller forwards                              *)

(** The loop of [trim_end], stripping whitespace from the front of a list. *)
Fixpoint drop_spaces (l : list ascii) : list ascii :=
  match l with
  | c :: rest => if is_js_space c then drop_spaces rest else l
  | [] => []
  end.

Lemma trim_end_drop (s : string) :
  trim_end s = string_of_list_ascii (rev (drop_spaces (rev (list_ascii_of_string s)))).
Proof. reflexivity. Qed.

Lemma drop_spaces_spec (l : list ascii) :
  (exists p, l = app p (drop_spaces l))
  /\ (drop_spaces l = [] \/ exists c rest, drop_spaces l = c :: rest /\ is_js_space c = false).
Proof.
  induction l as [|c l [[p Hp] IH]]; simpl.
  - split; [exists []; reflexivity|now left].
  - destruct (is_js_space c) eqn:Hc.
    + split; [exists (c :: p); simpl; now f_equal|exact IH].
    + split; [exists []; reflexivity|right; eauto].
Qed.

Lemma trim_start_spec (s : string) :
  trim_start s = EmptyString
  \/ exists c rest, trim_start s = String c rest /\ is_js_space c = false.
Proof.
  induction s as [|c s IH]; simpl; [now left|].
  destruct (is_js_space c) eqn:Hc; [exact IH|right; eauto].
Qed.

(** X9: the query the controller forwards ([trim question], see C6)
    neither starts nor ends with a whitespace or line-terminator code unit:
    it is empty, or its first and last characters are not whitespace. *)
Theorem X9_trimmed_edges (question : string) :
  trim question = EmptyString
  \/ exists c rest pre c',
       trim question = String c rest /\ is_js_space c = false
       /\ list_ascii_of_string (trim question) = app pre [c'] /\ is_js_space c' = false.
Proof.
  unfold trim; rewrite trim_end_drop.
  set (L := list_ascii_of_string (trim_start question)).
  destruct (drop_spaces_spec (rev L)) as [[p Hp] Hd].
  destruct Hd as [Hnil|[c' [rest' [Hd Hc']]]].
  - left; rewrite Hnil; reflexivity.
  - right; rewrite Hd.
    assert (HL : L = app (rev (c' :: rest')) (rev p)).
    { rewrite <- rev_app_distr, <- Hd, <- Hp, rev_involutive; reflexivity. }
    destruct (rev (c' :: rest')) as [|c rest] eqn:Hr.
    { apply (f_equal (@length ascii)) in Hr; simpl in Hr; rewrite length_app in Hr; simpl in Hr; lia. }
    assert (Hc : is_js_space c = false).
    { destruct (trim_start_spec question) as [He|[c0 [r0 [He Hc0]]]].
      - unfold L in HL; rewrite He in HL; discriminate HL.
      - unfold L in HL; rewrite He in HL; simpl in HL; injection HL as -> _; exact Hc0. }
    exists c, (string_of_list_ascii rest), (rev rest'), c'.
    split; [reflexivity|]; split; [exact Hc|]; split; [|exact Hc'].
    rewrite list_ascii_of_string_of_list_ascii, <- Hr; reflexivity.
Qed.

(* ------------------------------------------------------------------ *)
(** ** Initialization                                                   *)

(** X10: without a configured key (absent or empty), initialization fails
    with "GEMINI_API_KEY is not configured" before reading the dataset or
    embedding anything: the only effects are the start and error logs. *)
Theorem X10_missing_key (embed_documents : list Document -> res unit) (data : json) (t : trace) :
  forall apiKey, apiKey = None \/ apiKey = Some EmptyString ->
  initializeRag embed_documents apiKey data t
  = (app t [ELog "Initializing RAG system...";
            EError "Failed to initialize RAG system:" "GEMINI_API_KEY is not configured"],
     Err "GEMINI_API_KEY is not configured").
Proof.
  intros apiKey [-> | ->];
    unfold initializeRag, catch, bind, emit, throw; simpl; rewrite <- app_assoc; reflexivity.
Qed.

Lemma X10_missing_key_witness :
  (@None string = None \/ @None string = Some EmptyString)
  /\ initializeRag embed_ok None sample_data []
     = (app [] [ELog "Initializing RAG system...";
                EError "Failed to initialize RAG system:" "GEMINI_API_KEY is not configured"],
        Err "GEMINI_API_KEY is not configured").
Proof.
  split; [now left|]; apply X10_missing_key; now left.
Defined.

(** X12: a successful initialization builds the QA chain over exactly the
    loaded documents after embedding them once, and its effects are the
    start log, the log of the document count, the embedding of the
    documents and the success log. *)
Theorem X12_init_success (embed_documents : list Document -> res unit)
  (apiKey : option string) (data : json) (t t' : trace) (svc : RagService) :
  initializeRag embed_documents apiKey data t = (t', Ok svc) ->
  exists store,
    loadDocuments data = Ok store
    /\ embed_documents store = Ok tt
    /\ svc = mkRagService (Some store)
    /\ t' = app t [ELog "Initializing RAG system...";
                   ELog ("Loaded " ++ string_of_N (N.of_nat (length store))
                         ++ " documents from JSON file");
                   EIndex store;
                   ELog "RAG system initialized successfully"].
Proof.
  unfold initializeRag, loadDocuments_M, catch, bind, emit, ret, lift, throw.
  destruct (truthy (option_map JStr apiKey)); [|discriminate].
  destruct (loadDocuments data) as [docs|e0]; [|discriminate].
  destruct (embed_documents docs) as [[]|e0] eqn:He; [|discriminate].
  intros H; inversion H; subst.
  exists docs; repeat split; auto.
  rewrite <- !app_assoc; reflexivity.
Qed.

Lemma X12_init_success_witness :
  initializeRag embed_ok (Some "key") sample_data []
  = (fst (initializeRag embed_ok (Some "key") sample_data []),
     Ok (mkRagService (Some sample_store)))
  /\ exists store,
    loadDocuments sample_data = Ok store
    /\ embed_ok store = Ok tt
    /\ mkRagService (Some sample_store) = mkRagService (Some store)
    /\ fst (initializeRag embed_ok (Some "key") sample_data [])
       = app [] [ELog "Initializing RAG system...";
                 ELog ("Loaded " ++ string_of_N (N.of_nat (length store))
                       ++ " documents from JSON file");
                 EIndex store;
                 ELog "RAG system initialized successfully"].
Proof.
  assert (H : initializeRag embed_ok (Some "key") sample_data []
    = (fst (initializeRag embed_ok (Some "key") sample_data []),
       Ok (mkRagService (Some sample_store)))) by (vm_compute; reflexivity).
  split; [exact H|]; exact (X12_init_success _ _ _ _ _ _ H).
Defined.

(* ------------------------------------------------------------------ *)
(** ** What the [sources] refer to                                      *)

Lemma loaded_position (data : json) (store : list Document) :
  loadDocuments data = Ok store ->
  forall d, In d store ->
  exists i, nth_error store i = Some d /\ lookup "index" (metadata d) = Some (JNum (Z.of_nat i)).
Proof.
  intros H d Hd; destruct (is_array data) eqn:Ha.
  - destruct data as [| | | |items|fs]; try discriminate Ha.
    destruct (existsb (fun v => match v with JNull => true | _ => false end) items) eqn:Hn.
    + apply existsb_exists in Hn; destruct Hn as [v [Hv Hnull]].
      destruct v; try discriminate Hnull.
      cbn [loadDocuments] in H; rewrite (push_items_null items Hv 0 []) in H; discriminate H.
    + assert (Hall : Forall (fun v => v <> JNull) items).
      { apply Forall_forall; intros v Hv ->.
        assert (Hc : existsb (fun v => match v with JNull => true | _ => false end) items = true)
          by (apply existsb_exists; exists JNull; auto).
        congruence. }
      cbn [loadDocuments] in H; rewrite (push_items_nonnull items Hall 0 []) in H.
      injection H as <-; cbn [app] in Hd.
      destruct (In_nth_error _ _ Hd) as [i Hi]; exists i; split; [exact Hi|].
      rewrite indexed_values_nth in Hi.
      destruct (nth_error items i) as [v|]; [|discriminate Hi].
      injection Hi as <-; reflexivity.
  - rewrite (loadDocuments_single data Ha) in H.
    destruct (make_document data 0) as [d'|e] eqn:Hm; cbn [res_bind] in H; [|discriminate H].
    injection H as <-; destruct Hd as [<-|[]].
    apply make_document_inv in Hm; subst; exists 0; split; reflexivity.
Qed.

Lemma render_sources_in (ds : list Document) :
  forall pos s, In s (render_sources ds pos) ->
  exists d, In d ds
    /\ forall i, lookup "source" (metadata d) = Some (JStr dataset_source) ->
                 lookup "index" (metadata d) = Some (JNum (Z.of_nat i)) ->
                 s = "dataset_umkm.json (Document " ++ string_of_Z (Z.of_nat i) ++ ")".
Proof.
  induction ds as [|d ds IH]; intros pos s Hs; [destruct Hs|].
  cbn [render_sources] in Hs; destruct Hs as [<-|Hs].
  - exists d; split; [now left|]; intros i Hsrc Hidx; rewrite Hsrc, Hidx; reflexivity.
  - destruct (IH (S pos) s Hs) as [d' [Hd' Hf]]; exists d'; split; [now right|exact Hf].
Qed.

(** X13: on a service built by [initializeRag], when the retriever returns
    documents [ds] of the store, every string of the response's [sources]
    is "dataset_umkm.json (Document i)" where i is the position in the
    store of one of the retrieved documents. *)
Theorem X13_sources_name_retrieved
  (embed_documents : list Document -> res unit)
  (similarity_search : list Document -> string -> res (list Document))
  (chat_model : string -> res string)
  (apiKey : option string) (data : json) (t0 t1 : trace) (store : list Document)
  (q : string) (ds : list Document) (t t' : trace) (r : RagQueryResponse) :
  initializeRag embed_documents apiKey data t0 = (t1, Ok (mkRagService (Some store))) ->
  similarity_search store q = Ok ds ->
  incl ds store ->
  askQuestion similarity_search chat_model (mkRagService (Some store)) q t = (t', Ok r) ->
  forall s, In s (sources r) ->
  exists i d, nth_error store i = Some d /\ In d ds
              /\ s = "dataset_umkm.json (Document " ++ string_of_Z (Z.of_nat i) ++ ")".
Proof.
  intros Hinit Hs Hincl Hask s Hin.
  destruct (initializeRag_inv _ _ _ _ _ _ Hinit) as [store' [Hload Heq]].
  inversion Heq; subst store'.
  rewrite askQuestion_run, askQuestion_body_run, Hs in Hask; cbv zeta in Hask.
  destruct (chat_model _) as [text|e]; inversion Hask; subst r; cbn [sources] in Hin.
  unfold set_spread in Hin; rewrite set_spread_acc in Hin; cbn [app] in Hin.
  apply (proj2 (dedup_from_spec _ [])) in Hin; destruct Hin as [Hin _].
  destruct (render_sources_in ds 0 s Hin) as [d [Hd Hf]].
  destruct (loaded_position data store Hload d (Hincl d Hd)) as [i [Hi Hidx]].
  destruct (loadDocuments_inv data store Hload d (Hincl d Hd)) as [j [v Hdv]].
  exists i, d; split; [exact Hi|]; split; [exact Hd|].
  apply Hf; [subst d; reflexivity|exact Hidx].
Qed.

Lemma X13_sources_name_retrieved_witness :
  initializeRag embed_ok (Some "key") sample_data []
    = (fst (initializeRag embed_ok (Some "key") sample_data []),
       Ok (mkRagService (Some sample_store)))
  /\ echo_search sample_store "q" = Ok sample_store
  /\ incl sample_store sample_store
  /\ askQuestion echo_search (constant_chat "ok") (mkRagService (Some sample_store)) "q" []
     = (fst (askQuestion echo_search (constant_chat "ok") (mkRagService (Some sample_store)) "q" []),
        Ok sample_response)
  /\ forall s, In s (sources sample_response) ->
     exists i d, nth_error sample_store i = Some d /\ In d sample_store
                 /\ s = "dataset_umkm.json (Document " ++ string_of_Z (Z.of_nat i) ++ ")".
Proof.
  assert (H1 : initializeRag embed_ok (Some "key") sample_data []
    = (fst (initializeRag embed_ok (Some "key") sample_data []),
       Ok (mkRagService (Some sample_store)))) by (vm_compute; reflexivity).
  assert (H4 : askQuestion echo_search (constant_chat "ok") (mkRagService (Some sample_store)) "q" []
     = (fst (askQuestion echo_search (constant_chat "ok") (mkRagService (Some sample_store)) "q" []),
        Ok sample_response)) by (vm_compute; reflexivity).
  split; [exact H1|]; split; [reflexivity|]; split; [apply incl_refl|]; split; [exact H4|].
  exact (X13_sources_name_retrieved embed_ok echo_search (constant_chat "ok") (Some "key")
           sample_data [] _ sample_store "q" sample_store [] _ sample_response
           H1 eq_refl (incl_refl _) H4).
Defined.
